(** * The MySQL front-end connection handler of dataux

    A shallow embedding of [frontends/mysqlfe/mysql_handler.go]: the
    per-connection handler ([Open], [Close], [Handle], [SchemaUse]), the
    command dispatch ([chooseCommand]), the query pipeline ([handleQuery])
    and the bind-variable helper ([makeBindVars]).

    Go pointers that the handler mutates ([m *MySqlHandler],
    [req *models.Request]) live in an explicit store; calls to the
    collaborators (transport, planner, job, logger) are recorded, in
    order, in a trace; a Go panic is an outcome of its own, distinct from
    a returned [error]. *)

From Stdlib Require Import Strings.Ascii Strings.Byte.
From stdpp Require Import base strings list gmap pretty.

Local Open Scope string_scope.

(** ** Go values *)

(** A Go [string] is a sequence of bytes, and so is a Rocq [string];
    [string(b)] for a [[]byte] keeps the bytes. *)
Definition string_of_bytes (b : list byte) : string := String.string_of_list_byte b.

(** [fmt]'s [%d] verb on a non-negative integer. *)
Definition fmt_d (n : N) : string := pretty n.

(** [strings.HasPrefix(s, p)]. *)
Definition HasPrefix (s p : string) : bool := String.prefix p s.

(** [sub] occurs in [s]. *)
Definition Contains (sub s : string) : Prop :=
  ∃ pre post, s = pre +:+ sub +:+ post.

(** ** Bind variables *)

(** [fmt.Sprintf("v%d", i+1)] for the loop index [i]. *)
Definition bind_key (i : nat) : string := "v" +:+ fmt_d (N.of_nat (i + 1)).

(** The body of [for i, v := range args], started at index [i]. *)
Fixpoint range_from {V} (i : nat) (args : list V) (bindVars : gmap string V)
  : gmap string V :=
  match args with
  | [] => bindVars
  | v :: rest => range_from (S i) rest (<[bind_key i := v]> bindVars)
  end.

(** [func makeBindVars(args []interface{}) map[string]interface{}] *)
Definition makeBindVars {V} (args : list V) : gmap string V :=
  range_from 0 args ∅.

(** ** Errors, panics and outcomes *)

(** A Go [error] value; the nil error is [None : option GoError]. *)
Inductive GoError :=
| ErrorString (msg : string)          (* made by [fmt.Errorf] *)
| SqlError (code : N) (msg : string)  (* [*mysql.SqlError], made by [mysql.NewError] *)
| ForeignError (msg : string).        (* any other error type of a collaborator *)

(** [fmt.Errorf] with the message already formatted. *)
Definition Errorf (msg : string) : GoError := ErrorString msg.

(** The value a panic carries. *)
Inductive PanicValue :=
| PanicString (s : string)      (* [panic("...")] *)
| RuntimeError (msg : string).  (* a [runtime.Error] raised by the Go runtime *)

(** [a[i]] on a slice of length [len] with [len <= i]. *)
Definition index_out_of_range (i len : nat) : PanicValue :=
  RuntimeError ("index out of range [" +:+ fmt_d (N.of_nat i)
                +:+ "] with length " +:+ fmt_d (N.of_nat len)).

(** A field read through a nil pointer. *)
Definition nil_dereference : PanicValue :=
  RuntimeError "invalid memory address or nil pointer dereference".

(** [%v] on a recovered panic value. *)
Definition fmt_v_panic (v : PanicValue) : string :=
  match v with
  | PanicString s => s
  | RuntimeError msg => "runtime error: " +:+ msg
  end.

(** How a Go call ends: it returns, or it panics. *)
Inductive Outcome (A : Type) :=
| Returned (a : A)
| Panicked (v : PanicValue).
Arguments Returned {A} a.
Arguments Panicked {A} v.

(** ** The objects the handler works with *)

#[global] Instance byte_eq_dec : EqDecision byte := Byte.byte_eq_dec.

(** [*schema.Schema]. *)
Record Schema := { schema_Name : string }.

(** [expr.ContextReader], the session variables. *)
Record ContextReader := { session_vars : gmap string string }.

(** [models.ResultWriter], the sink the transport loop hands to [Handle]. *)
Record ResultWriter := { writer_id : N }.

(** Modelled from the spec: the transport [*proxy.Conn] of
    vendored/mixer/proxy, which "exposes a single-shot write OK operation"
    and whose close "returns the underlying close error, if any". A
    connection answers [Close()] and [WriteOK(nil)] with an error or nil. *)
Record Conn := {
  conn_id : N;
  conn_Close : option GoError;
  conn_WriteOK : option GoError
}.

(** [models.Config]; only the flag the handler reads. *)
Record ServerConfig := { SupressRecover : bool }.

(** Modelled from the spec: [*models.ServerCtx], "a registry mapping
    schema name to schema object, and global configuration". *)
Record ServerCtx := {
  Config : ServerConfig;
  schemas : gmap string Schema
}.

(** Modelled from the spec: [ServerCtx.Schema(db)], "given a name, returns
    a schema handle or an absent result". *)
Definition ServerCtx_Schema (svr : ServerCtx) (db : string) : option Schema :=
  schemas svr !! db.

(** [*plan.Context], the per-query record handed to the planner. *)
Record Context := {
  ctx_Raw : string;
  ctx_DisableRecover : bool;
  ctx_Session : option ContextReader;
  ctx_Schema : option Schema
}.

(** [plan.NewContext(sql)]. *)
Definition NewContext (sql : string) : Context :=
  {| ctx_Raw := sql; ctx_DisableRecover := false;
     ctx_Session := None; ctx_Schema := None |}.

(** The dynamic type of [job.Ctx.Stmt], as the type switch of
    [handleQuery] tells them apart; any other type is kept with its [%T]
    and [%v] renderings. *)
Inductive Statement :=
| SqlSelect | SqlShow | SqlDescribe
| SqlInsert | SqlUpsert | SqlUpdate | SqlDelete
| SqlCommand
| OtherStatement (type_name : string) (text : string).

(** Modelled from the spec: the Job of the planner, which "exposes
    Finalize(writer), Run(), Close()", each ending in an error, in nil, or
    in a fault. *)
Record Job := {
  job_id : N;
  job_Stmt : Statement;
  job_Finalize : Outcome (option GoError);
  job_Run : Outcome (option GoError);
  job_Close : Outcome (option GoError)
}.

(** [exec.Task]: the result writers of the package, named after their
    constructors [NewMySqlResultWriter], [NewMySqlSchemaWriter] and
    [NewMySqlExecResultWriter], which take the sink and [job.Ctx]. *)
Inductive Task :=
| MySqlResultWriter (writer : ResultWriter) (job : N)
| MySqlSchemaWriter (writer : ResultWriter) (job : N)
| MySqlExecResultWriter (writer : ResultWriter) (job : N).

(** The argument of [Open]: an [interface{}] holding a [*proxy.Conn]
    (possibly a nil pointer) or a value of another type, kept with its
    [%T] rendering. *)
Inductive Transport :=
| ProxyConn (c : option Conn)
| OtherValue (type_name : string).

(** [MySqlHandlerShared], shared across connections. *)
Record MySqlHandlerShared := { svr : ServerCtx }.

(** [MySqlHandler], a single connection session. *)
Record MySqlHandler := {
  shared : MySqlHandlerShared;
  sess : option ContextReader;
  conn : option Conn;
  schema : option Schema
}.

(** [models.Request]. *)
Record Request := { Raw : list byte }.

(** ** Calls to collaborators, in the order they are made *)

(** The levels of the logger [u]: [u.Debugf], [u.Warnf], [u.Errorf]. *)
Inductive LogLevel := LvlDebug | LvlWarn | LvlError.

Inductive Event :=
| EvLog (lvl : LogLevel) (msg : string)
| EvConnClose (c : N)
| EvConnWriteOK (c : N)
| EvBuildJob (ctx : Context)
| EvJobFinalize (j : N) (w : Task)
| EvJobRun (j : N)
| EvJobClose (j : N).

(** How many times [job.Close()] was called on job [j]. *)
Fixpoint closes (j : N) (t : list Event) : nat :=
  match t with
  | [] => 0
  | EvJobClose j' :: t => if (j' =? j)%N then S (closes j t) else closes j t
  | _ :: t => closes j t
  end.

(** The handler [m], the request [req] (both reached through pointers and
    mutated in place) and the trace of collaborator calls. *)
Record Store := {
  handler : MySqlHandler;
  request : Request;
  trace : list Event
}.

(** ** A state monad with panics *)

Definition M (S A : Type) : Type := S → Outcome A * S.

Definition ret {S A} (a : A) : M S A := λ s, (Returned a, s).

Definition bind {S A B} (m : M S A) (k : A → M S B) : M S B :=
  λ s, match m s with
       | (Returned a, s') => k a s'
       | (Panicked v, s') => (Panicked v, s')
       end.

(** [panic(v)]: the rest of the function body is skipped. *)
Definition panic {S A} (v : PanicValue) : M S A := λ s, (Panicked v, s).

Definition gets {S A} (f : S → A) : M S A := λ s, (Returned (f s), s).

Definition modify {S} (f : S → S) : M S unit := λ s, (Returned tt, f s).

(** Run a computation on a part [S] of a larger state [T]. *)
Definition zoom {S T A} (get : T → S) (set : S → T → T) (m : M S A) : M T A :=
  λ t, let '(r, s') := m (get t) in (r, set s' t).

Declare Scope go_scope.
Delimit Scope go_scope with go.
Notation "'do' x <- m ; k" := (bind m (λ x, k))
  (at level 10, x name, m at level 100, k at level 200,
   format "'[v' 'do'  x  <-  m ; '/' k ']'") : go_scope.
Notation "'do' ' p <- m ; k" := (bind m (λ x, match x with p => k end))
  (at level 10, p pattern, m at level 100, k at level 200,
   format "'[v' 'do'  ' p  <-  m ; '/' k ']'") : go_scope.
Notation "'run' m ; k" := (bind m (λ _, k))
  (at level 10, m at level 100, k at level 200,
   format "'[v' 'run'  m ; '/' k ']'") : go_scope.
Local Open Scope go_scope.

(** Field updates of the store. *)
Definition set_handler (h : MySqlHandler) (st : Store) : Store :=
  {| handler := h; request := request st; trace := trace st |}.
Definition set_request (r : Request) (st : Store) : Store :=
  {| handler := handler st; request := r; trace := trace st |}.
Definition emit (e : Event) : M Store unit :=
  modify (λ st, {| handler := handler st; request := request st;
                   trace := trace st ++ [e] |}).

(** [m.conn = c] and [m.schema = s]. *)
Definition set_conn (c : option Conn) (m : MySqlHandler) : MySqlHandler :=
  {| shared := shared m; sess := sess m; conn := c; schema := schema m |}.
Definition set_schema (s : option Schema) (m : MySqlHandler) : MySqlHandler :=
  {| shared := shared m; sess := sess m; conn := conn m; schema := s |}.

(** The logger. *)
Definition log (lvl : LogLevel) (msg : string) : M Store unit :=
  emit (EvLog lvl msg).

(** [c.Close()] on the transport. *)
Definition Conn_Close (c : Conn) : M Store (option GoError) :=
  run emit (EvConnClose (conn_id c));
  ret (conn_Close c).

(** [c.WriteOK(nil)] on the transport; on a nil [*proxy.Conn] the method
    reads a field of its receiver. *)
Definition Conn_WriteOK (c : option Conn) : M Store (option GoError) :=
  match c with
  | Some c => run emit (EvConnWriteOK (conn_id c)); ret (conn_WriteOK c)
  | None => panic nil_dereference
  end.

(** The three calls on a job: each is recorded, then ends as the job says. *)
Definition call {A} (e : Event) (o : Outcome A) : M Store A :=
  run emit e;
  match o with
  | Returned a => ret a
  | Panicked v => panic v
  end.
Definition Job_Finalize (j : Job) (w : Task) : M Store (option GoError) :=
  call (EvJobFinalize (job_id j) w) (job_Finalize j).
Definition Job_Run (j : Job) : M Store (option GoError) :=
  call (EvJobRun (job_id j)) (job_Run j).
Definition Job_Close (j : Job) : M Store (option GoError) :=
  call (EvJobClose (job_id j)) (job_Close j).

(** ** What the handler takes from other packages *)

(** The constants and helpers of vendored/mixer/mysql, Go's
    [strings.ToLower], and the session and planner constructors of the
    package. [SqlError_Error code msg] is the text of [Error()] on the
    error [mysql.NewError(code, msg)]. The command bytes are pairwise
    different: they are the constant cases of one [switch]. *)
Class Collaborators := {
  COM_QUIT : byte;
  COM_INIT_DB : byte;
  COM_QUERY : byte;
  COM_FIELD_LIST : byte;
  COM_PING : byte;
  COM_STMT_PREPARE : byte;
  ER_UNKNOWN_ERROR : N;
  ER_WARN_DEPRECATED_SYNTAX : N;
  CommandString : byte → string;
  SqlError_Error : N → string → string;
  ToLower : string → string;
  NewMySqlSessionVars : ContextReader;
  BuildMySqlJob : ServerCtx → Context → Outcome (option Job * option GoError);
  commands_distinct :
    NoDup [COM_FIELD_LIST; COM_QUERY; COM_STMT_PREPARE;
           COM_PING; COM_QUIT; COM_INIT_DB]
}.

(** [mysql.NewError(code, msg)]. *)
Definition NewError (code : N) (msg : string) : GoError := SqlError code msg.

(** [err.Error()], as [%v] prints an error. *)
Definition error_text {env : Collaborators} (e : GoError) : string :=
  match e with
  | ErrorString msg => msg
  | SqlError code msg => SqlError_Error code msg
  | ForeignError msg => msg
  end.

(** The locals of [handleQuery] that its deferred function reads: the
    store and the variable [sql], which the body may overwrite. *)
Record Frame := { fr_store : Store; fr_sql : string }.

Definition set_store (st : Store) (fr : Frame) : Frame :=
  {| fr_store := st; fr_sql := fr_sql fr |}.
Definition set_sql (sql : string) (fr : Frame) : Frame :=
  {| fr_store := fr_store fr; fr_sql := sql |}.
Definition in_store {A} (m : M Store A) : M Frame A :=
  zoom fr_store set_store m.
Definition update_handler (f : MySqlHandler → MySqlHandler) : M Store unit :=
  modify (λ st, set_handler (f (handler st)) st).

(** The two schema errors: [fmt.Errorf("no schema in use")] of
    [handleQuery] and [fmt.Errorf("Schema not found %s", db)] of
    [chooseCommand]. *)
Definition no_schema_in_use : GoError := Errorf "no schema in use".
Definition schema_not_found (db : string) : GoError :=
  Errorf ("Schema not found " +:+ db).

(** ** The handler *)

Section Handler.
Context {env : Collaborators}.

(** [func (m *MySqlHandlerShared) Init() error] *)
Definition Init (m : MySqlHandlerShared) : option GoError := None.

(** [func NewMySqlHandler(svr *models.ServerCtx) (models.ConnectionHandle, error)] *)
Definition NewMySqlHandler (svr : ServerCtx) : MySqlHandler * option GoError :=
  let sharedHandler := {| svr := svr |} in
  let err := Init sharedHandler in
  let connHandler :=
    {| shared := sharedHandler; sess := None; conn := None; schema := None |} in
  (connHandler, err).

(** [func (m *MySqlHandler) Open(connI interface{}) models.Handler] *)
Definition Open (m : MySqlHandler) (connI : Transport) : Outcome MySqlHandler :=
  let h := {| shared := shared m; sess := None; conn := None; schema := None |} in
  let h := {| shared := shared h; sess := Some NewMySqlSessionVars;
              conn := conn h; schema := schema h |} in
  match connI with
  | ProxyConn c => Returned (set_conn c h)
  | OtherValue type_name =>
      Panicked (PanicString ("not proxy.Conn? " +:+ type_name))
  end.

(** [func (m *MySqlHandler) Close() error] *)
Definition Close : M Store (option GoError) :=
  do m <- gets handler;
  match conn m with
  | Some c =>
      do err <- Conn_Close c;
      run update_handler (set_conn None);
      ret err
  | None => ret None
  end.

(** [func (m *MySqlHandler) SchemaUse(db string) *schema.Schema] *)
Definition SchemaUse (db : string) : M Store (option Schema) :=
  do m <- gets handler;
  match ServerCtx_Schema (svr (shared m)) db with
  | None =>
      run log LvlWarn ("Could not find schema for db=" +:+ db);
      ret None
  | Some s =>
      run update_handler (set_schema (Some s));
      ret (Some s)
  end.

(** [func (m *MySqlHandler) writeOK(r *mysql.Result) error] *)
Definition writeOK : M Store (option GoError) :=
  do m <- gets handler;
  Conn_WriteOK (conn m).

(** The query context of [handleQuery]: [plan.NewContext(sql)] with
    [DisableRecover], [Session] and [Schema] set from the handler. *)
Definition query_context (m : MySqlHandler) (sql : string) : Context :=
  let ctx := NewContext sql in
  {| ctx_Raw := ctx_Raw ctx;
     ctx_DisableRecover := SupressRecover (Config (svr (shared m)));
     ctx_Session := sess m;
     ctx_Schema := schema m |}.

(** The end of [handleQuery], from [job.Finalize(resultWriter)] on. *)
Definition finalize_run_close (job : Job) (resultWriter : Task)
  : M Store (option GoError) :=
  do err <- Job_Finalize job resultWriter;
  match err with
  | Some e =>
      run log LvlError ("error on finalize " +:+ error_text e);
      ret (Some e)
  | None =>
      do err <- Job_Run job;
      run match err with
          | Some e => log LvlError ("error on Query.Run(): " +:+ error_text e)
          | None => ret tt
          end;
      do _ <- Job_Close job;
      ret err
  end.

(** The body of [handleQuery], below the deferred recovery. *)
Definition handleQuery_body (writer : ResultWriter) : M Frame (option GoError) :=
  do m <- in_store (gets handler);
  match schema m with
  | None =>
      run in_store (log LvlWarn "missing schema?  ");
      ret (Some no_schema_in_use)
  | Some _ =>
      do sql <- gets fr_sql;
      let ctx := query_context m sql in
      do ' (job, err) <- in_store (call (EvBuildJob ctx)
                                       (BuildMySqlJob (svr (shared m)) ctx));
      match err with
      | Some err =>
          run modify (λ fr, set_sql (ToLower (fr_sql fr)) fr);
          do sql <- gets fr_sql;
          if HasPrefix sql "set " then
            in_store writeOK
          else
            run in_store (log LvlDebug ("error on parse sql statement: "
                                        +:+ error_text err));
            ret (Some err)
      | None =>
          match job with
          | None => ret None
          | Some job =>
              let stmt := job_Stmt job in
              match stmt with
              | SqlSelect =>
                  in_store (finalize_run_close job
                              (MySqlResultWriter writer (job_id job)))
              | SqlShow | SqlDescribe =>
                  in_store (finalize_run_close job
                              (MySqlSchemaWriter writer (job_id job)))
              | SqlInsert | SqlUpsert | SqlUpdate | SqlDelete =>
                  in_store (finalize_run_close job
                              (MySqlExecResultWriter writer (job_id job)))
              | SqlCommand =>
                  in_store writeOK
              | OtherStatement type_name text =>
                  run in_store (log LvlWarn ("sql not supported?  "
                                             +:+ text +:+ "  " +:+ type_name));
                  ret (Some (Errorf ("statement type " +:+ type_name
                                     +:+ " not supported")))
              end
          end
      end
  end.

(** [func (m *MySqlHandler) handleQuery(writer, sql) (err error)]: unless
    [SupressRecover] is set, a panic of the body is recovered and becomes
    the returned error. *)
Definition handleQuery (writer : ResultWriter) (sql : string)
  : M Store (option GoError) :=
  λ st,
    let recovering := negb (SupressRecover (Config (svr (shared (handler st))))) in
    let '(r, fr) := handleQuery_body writer {| fr_store := st; fr_sql := sql |} in
    match r with
    | Returned err => (Returned err, fr_store fr)
    | Panicked e =>
        if recovering then
          let '(_, st') :=
            log LvlError ("recover? " +:+ fmt_v_panic e) (fr_store fr) in
          (Returned (Some (Errorf ("handle query " +:+ fr_sql fr +:+ " error "
                                   +:+ fmt_v_panic e))), st')
        else (Panicked e, fr_store fr)
    end.

(** The [switch cmd] of [chooseCommand]. *)
Definition switch_cmd (writer : ResultWriter) (cmd : byte)
  : M Store (option GoError) :=
  if decide (cmd = COM_FIELD_LIST) then
    let msg := "command " +:+ fmt_d (Byte.to_N cmd) +:+ ":"
               +:+ CommandString cmd +:+ " is deprecated" in
    ret (Some (NewError ER_WARN_DEPRECATED_SYNTAX msg))
  else if decide (cmd = COM_QUERY ∨ cmd = COM_STMT_PREPARE) then
    do req <- gets request;
    handleQuery writer (string_of_bytes (Raw req))
  else if decide (cmd = COM_PING) then
    writeOK
  else if decide (cmd = COM_QUIT) then
    do _ <- Close;
    ret None
  else if decide (cmd = COM_INIT_DB) then
    do req <- gets request;
    do s <- SchemaUse (string_of_bytes (Raw req));
    match s with
    | None => ret (Some (schema_not_found (string_of_bytes (Raw req))))
    | Some _ => writeOK
    end
  else
    let msg := "command " +:+ fmt_d (Byte.to_N cmd) +:+ ":"
               +:+ CommandString cmd +:+ " not yet supported" in
    ret (Some (NewError ER_UNKNOWN_ERROR msg)).

(** [func (m *MySqlHandler) chooseCommand(writer, req) error] *)
Definition chooseCommand (writer : ResultWriter) : M Store (option GoError) :=
  do req <- gets request;
  match Raw req with
  | [] => panic (index_out_of_range 0 0)
  | cmd :: rest =>
      run modify (set_request {| Raw := rest |});
      switch_cmd writer cmd
  end.

(** [func (m *MySqlHandler) Handle(writer, req) error] *)
Definition Handle (writer : ResultWriter) : M Store (option GoError) :=
  chooseCommand writer.

End Handler.

(** The store reached by calling [Close] [n] times in a row. *)
Fixpoint after_closes (n : nat) (st : Store) : Store :=
  match n with
  | 0 => st
  | S n => after_closes n (snd (Close st))
  end.

(** The statement kinds for which [handleQuery] picks a result writer. *)
Definition has_writer (s : Statement) : bool :=
  match s with
  | SqlCommand | OtherStatement _ _ => false
  | _ => true
  end.

(** ** A concrete setting

    The command bytes and error codes of the MySQL protocol, an ASCII
    [ToLower], and a planner that answers every query the same way. *)

Module Sample.

Definition ascii_lower (c : ascii) : ascii :=
  let n := Ascii.N_of_ascii c in
  if ((65 <=? n) && (n <=? 90))%N then Ascii.ascii_of_N (n + 32) else c.

Fixpoint lower (s : string) : string :=
  match s with
  | EmptyString => EmptyString
  | String c rest => String (ascii_lower c) (lower rest)
  end.

Definition command_name (cmd : byte) : string :=
  match Byte.to_N cmd with
  | 0 => "COM_SLEEP"
  | 1 => "COM_QUIT"
  | 2 => "COM_INIT_DB"
  | 3 => "COM_QUERY"
  | 4 => "COM_FIELD_LIST"
  | 14 => "COM_PING"
  | 22 => "COM_STMT_PREPARE"
  | _ => "UNKNOWN"
  end%N.

Definition commands : list byte := [x04; x03; x16; x0e; x01; x02].

Definition commands_NoDup : NoDup commands.
Proof. apply (bool_decide_unpack _). vm_compute. exact I. Defined.

Definition protocol
    (planner : ServerCtx → Context → Outcome (option Job * option GoError))
  : Collaborators :=
  {| COM_QUIT := x01;
     COM_INIT_DB := x02;
     COM_QUERY := x03;
     COM_FIELD_LIST := x04;
     COM_PING := x0e;
     COM_STMT_PREPARE := x16;
     ER_UNKNOWN_ERROR := 1105;
     ER_WARN_DEPRECATED_SYNTAX := 1287;
     CommandString := command_name;
     SqlError_Error := λ code msg,
       "ERROR " +:+ fmt_d code +:+ " (HY000): " +:+ msg;
     ToLower := lower;
     NewMySqlSessionVars := {| session_vars := ∅ |};
     BuildMySqlJob := planner;
     commands_distinct := commands_NoDup |}.

(** A planner that returns [(job, err)] whatever it is asked. *)
Definition planner_returns (job : option Job) (err : option GoError)
  : ServerCtx → Context → Outcome (option Job * option GoError) :=
  λ _ _, Returned (job, err).

Definition test_schema : Schema := {| schema_Name := "test" |}.

Definition server : ServerCtx :=
  {| Config := {| SupressRecover := false |};
     schemas := {[ "test" := test_schema ]} |}.

Definition client : Conn :=
  {| conn_id := 1; conn_Close := None; conn_WriteOK := None |}.

(** A handler as [NewMySqlHandler] makes it: no connection, no schema. *)
Definition template : MySqlHandler :=
  {| shared := {| svr := server |}; sess := None; conn := None; schema := None |}.

(** A handler bound to [client], before and after [use test]. *)
Definition connected : MySqlHandler :=
  {| shared := {| svr := server |}; sess := Some {| session_vars := ∅ |};
     conn := Some client; schema := None |}.
Definition using_test : MySqlHandler := set_schema (Some test_schema) connected.

(** A request: a command byte followed by text. *)
Definition packet (cmd : byte) (text : string) : Request :=
  {| Raw := cmd :: String.list_byte_of_string text |}.

Definition store (h : MySqlHandler) (r : Request) : Store :=
  {| handler := h; request := r; trace := [] |}.

Definition sink : ResultWriter := {| writer_id := 0 |}.

Definition parse_error : GoError := ForeignError "unrecognized statement".

(** A [SELECT] job whose [Finalize] fails. *)
Definition job_unfinalized : Job :=
  {| job_id := 7; job_Stmt := SqlSelect;
     job_Finalize := Returned (Some (ForeignError "no worker node ready"));
     job_Run := Returned None;
     job_Close := Returned None |}.

(** A [SELECT] job whose [Run] fails. *)
Definition job_failing : Job :=
  {| job_id := 8; job_Stmt := SqlSelect;
     job_Finalize := Returned None;
     job_Run := Returned (Some (ForeignError "backend unreachable"));
     job_Close := Returned None |}.

(** A planner that faults. *)
Definition planner_panics (v : PanicValue)
  : ServerCtx → Context → Outcome (option Job * option GoError) :=
  λ _ _, Panicked v.

(** A session command, answered without a result writer. *)
Definition job_command : Job :=
  {| job_id := 9; job_Stmt := SqlCommand;
     job_Finalize := Returned None;
     job_Run := Returned None;
     job_Close := Returned None |}.

(** A statement the type switch of [handleQuery] does not know. *)
Definition job_unsupported : Job :=
  {| job_id := 10; job_Stmt := OtherStatement "*rel.SqlCreate" "CREATE TABLE t";
     job_Finalize := Returned None;
     job_Run := Returned None;
     job_Close := Returned None |}.

(** A [SELECT] job whose [Run] faults. *)
Definition job_faulting : Job :=
  {| job_id := 11; job_Stmt := SqlSelect;
     job_Finalize := Returned None;
     job_Run := Panicked (PanicString "unexpected row shape");
     job_Close := Returned None |}.

(** An [INSERT] job that runs, and whose [Close] reports an error. *)
Definition job_insert : Job :=
  {| job_id := 12; job_Stmt := SqlInsert;
     job_Finalize := Returned None;
     job_Run := Returned None;
     job_Close := Returned (Some (ForeignError "already closed")) |}.

(** The same server with recovery switched off. *)
Definition server_unrecovered : ServerCtx :=
  {| Config := {| SupressRecover := true |};
     schemas := {[ "test" := test_schema ]} |}.

End Sample.

(** * Properties *)

(** ** Bind variables *)

Example makeBindVars_three :
  makeBindVars [10%Z; 20%Z; 30%Z]
  = <["v3" := 30%Z]> (<["v2" := 20%Z]> (<["v1" := 10%Z]> ∅)).
Proof. reflexivity. Qed.

#[local] Instance key_inj : Inj (=) (=) bind_key.
Proof.
  intros i j H. unfold bind_key, fmt_d in H.
  injection H as H. change (pretty (N.of_nat (i + 1)) = pretty (N.of_nat (j + 1))) in H.
  apply (inj (@pretty N _)) in H. lia.
Qed.

Lemma range_from_lookup_old {V} (args : list V) :
  ∀ i (acc : gmap string V) j,
    j < i → range_from i args acc !! bind_key j = acc !! bind_key j.
Proof.
  induction args as [|v rest IH]; intros i acc j Hj; simpl; [done|].
  rewrite IH by lia. rewrite lookup_insert_ne; [done|].
  intros E. apply key_inj in E. lia.
Qed.

Lemma range_from_lookup {V} (args : list V) :
  ∀ i (acc : gmap string V) j,
    range_from i args acc !! bind_key (i + j)
    = match args !! j with Some v => Some v | None => acc !! bind_key (i + j) end.
Proof.
  induction args as [|v rest IH]; intros i acc j; simpl; [done|].
  destruct j as [|j]; simpl.
  - rewrite Nat.add_0_r, range_from_lookup_old by lia.
    by rewrite lookup_insert_eq.
  - replace (i + S j) with (S i + j) by lia. rewrite IH.
    destruct (rest !! j); [done|].
    rewrite lookup_insert_ne; [done|].
    intros E. apply key_inj in E. lia.
Qed.

Lemma range_from_dom {V} (args : list V) :
  ∀ i (acc : gmap string V),
    dom (range_from i args acc)
    = list_to_set (bind_key <$> seq i (length args)) ∪ dom acc.
Proof.
  induction args as [|v rest IH]; intros i acc; simpl.
  - by rewrite (left_id_L ∅ (∪)).
  - rewrite IH, dom_insert_L.
    by rewrite (assoc_L (∪)), (comm_L (∪) _ {[bind_key i]}).
Qed.

(** C6. [makeBindVars] is a total pure function: the i-th argument
    (counting from 1) is bound to the key ["v" ++ i], the keys are exactly
    ["v1"] to ["vn"], the empty sequence gives the empty mapping, and
    [makeBindVars([10, 20, 30])] is [{"v1":10, "v2":20, "v3":30}]. *)
Theorem makeBindVars_spec {V} (args : list V) :
  (∀ i, makeBindVars args !! ("v" +:+ fmt_d (N.of_nat (i + 1))) = args !! i)
  ∧ dom (makeBindVars args)
    = list_to_set ((λ i, "v" +:+ fmt_d (N.of_nat (i + 1))) <$> seq 0 (length args))
  ∧ size (makeBindVars args) = length args
  ∧ makeBindVars (@nil V) = ∅
  ∧ makeBindVars [10; 20; 30]%Z = {[ "v1" := 10; "v2" := 20; "v3" := 30 ]}%Z.
Proof.
  assert (Hdom : dom (makeBindVars args)
                 = list_to_set (bind_key <$> seq 0 (length args))).
  { unfold makeBindVars. rewrite range_from_dom, dom_empty_L.
    by rewrite (right_id_L ∅ (∪)). }
  split_and!.
  - intros i. unfold makeBindVars.
    pose proof (range_from_lookup args 0 ∅ i) as E. simpl in E.
    fold (bind_key i). rewrite E, lookup_empty. by destruct (args !! i).
  - exact Hdom.
  - rewrite <- size_dom, Hdom, size_list_to_set, length_fmap, length_seq; [done|].
    apply (NoDup_fmap_2 _), NoDup_seq.
  - reflexivity.
  - vm_compute. reflexivity.
Qed.

(** ** Strings *)

Lemma Contains_middle (pre sub post : string) :
  Contains sub (pre +:+ sub +:+ post).
Proof. by exists pre, post. Qed.

Lemma append_assoc (a b c : string) : (a +:+ b) +:+ c = a +:+ b +:+ c.
Proof.
  induction a as [|x a IH]; [done|].
  change (String x ((a +:+ b) +:+ c) = String x (a +:+ b +:+ c)).
  by f_equal.
Qed.

Lemma Contains_after (a sub s : string) :
  Contains sub s → Contains sub (a +:+ s).
Proof.
  intros (p & q & ->). exists (a +:+ p), q. by rewrite append_assoc.
Qed.

(** ** Command dispatch *)

(** Unfold the monad to the store transformer it stands for. *)
Ltac go_unfold :=
  unfold Handle, chooseCommand, switch_cmd, writeOK, SchemaUse, Close,
    Conn_Close, Conn_WriteOK, Job_Finalize, Job_Run, Job_Close, call, log,
    emit, update_handler, in_store, zoom, bind, ret, gets, modify, panic,
    NewError, Errorf in *.

Section Dispatch.
Context {env : Collaborators}.

(** The six command bytes are pairwise different. *)
Lemma command_cases :
  COM_FIELD_LIST ≠ COM_QUERY ∧ COM_FIELD_LIST ≠ COM_STMT_PREPARE
  ∧ COM_FIELD_LIST ≠ COM_PING ∧ COM_FIELD_LIST ≠ COM_QUIT
  ∧ COM_FIELD_LIST ≠ COM_INIT_DB
  ∧ COM_QUERY ≠ COM_PING ∧ COM_QUERY ≠ COM_QUIT ∧ COM_QUERY ≠ COM_INIT_DB
  ∧ COM_STMT_PREPARE ≠ COM_PING ∧ COM_STMT_PREPARE ≠ COM_QUIT
  ∧ COM_STMT_PREPARE ≠ COM_INIT_DB
  ∧ COM_PING ≠ COM_QUIT ∧ COM_PING ≠ COM_INIT_DB
  ∧ COM_QUIT ≠ COM_INIT_DB.
Proof.
  pose proof commands_distinct as D.
  repeat match type of D with
         | NoDup (_ :: _) => apply NoDup_cons in D as [? D]
         end.
  repeat match goal with
         | N : _ ∉ _ :: _ |- _ => apply not_elem_of_cons in N as [? N]
         end.
  split_and!; assumption.
Qed.

(** A query command reaches [handleQuery] with the request's bytes as
    the SQL text. *)
Lemma switch_cmd_query writer cmd st :
  cmd = COM_QUERY ∨ cmd = COM_STMT_PREPARE →
  switch_cmd writer cmd st
  = handleQuery writer (string_of_bytes (Raw (request st))) st.
Proof.
  intros Hcmd. pose proof command_cases as D.
  unfold switch_cmd, bind, gets.
  destruct (decide (cmd = COM_FIELD_LIST)) as [->|_].
  - destruct D as (? & ? & _). destruct Hcmd; congruence.
  - by rewrite decide_True.
Qed.

(** [init-db] reaches [SchemaUse] with the request's bytes as the name. *)
Lemma switch_cmd_init_db writer st :
  switch_cmd writer COM_INIT_DB st
  = bind (SchemaUse (string_of_bytes (Raw (request st))))
      (λ s, match s with
            | None => ret (Some (schema_not_found
                                   (string_of_bytes (Raw (request st)))))
            | Some _ => writeOK
            end) st.
Proof.
  pose proof command_cases as D. unfold switch_cmd.
  rewrite !decide_False by (intuition congruence).
  by rewrite decide_True.
Qed.

End Dispatch.

Section DispatchClaims.
Context {env : Collaborators}.

(** C10. [Handle] indexes byte 0 of the request's payload with no guard:
    on an empty payload the index faults, whatever the handler is and
    whether or not recovery is suppressed, and nothing else happens; on a
    payload [cmd :: rest] the request is left holding [rest] and the
    switch runs on [cmd], a query command taking [rest] as its SQL
    text. *)
Theorem Handle_first_byte (writer : ResultWriter) (st : Store) :
  Handle writer st
  = match Raw (request st) with
    | [] => (Panicked (index_out_of_range 0 0), st)
    | cmd :: rest => switch_cmd writer cmd (set_request {| Raw := rest |} st)
    end
  ∧ ∀ rest,
      switch_cmd writer COM_QUERY (set_request {| Raw := rest |} st)
      = handleQuery writer (string_of_bytes rest)
          (set_request {| Raw := rest |} st).
Proof.
  split.
  - unfold Handle, chooseCommand, bind, gets, modify, panic.
    by destruct (Raw (request st)).
  - intros rest. rewrite switch_cmd_query by (by left). done.
Qed.

(** C8. A request whose command byte is field-list is answered with a
    protocol error carrying the deprecated-syntax code, whatever the
    rest of the payload; the handler and the trace are untouched. *)
Theorem field_list_is_deprecated
    (writer : ResultWriter) (h : MySqlHandler) (t : list Event)
    (payload : list byte) :
  Handle writer {| handler := h;
                   request := {| Raw := COM_FIELD_LIST :: payload |};
                   trace := t |}
  = (Returned (Some (SqlError ER_WARN_DEPRECATED_SYNTAX
                       ("command " +:+ fmt_d (Byte.to_N COM_FIELD_LIST) +:+ ":"
                        +:+ CommandString COM_FIELD_LIST +:+ " is deprecated"))),
     {| handler := h; request := {| Raw := payload |}; trace := t |}).
Proof.
  go_unfold. simpl. by rewrite decide_True.
Qed.

(** C9. A request whose command byte is none of query, prepare, ping,
    quit, init-db and field-list is answered with a protocol error
    carrying the generic error code; its message contains the command's
    number in decimal and the command's name. *)
Theorem unsupported_command
    (writer : ResultWriter) (h : MySqlHandler) (t : list Event)
    (cmd : byte) (payload : list byte) :
  cmd ∉ [COM_QUERY; COM_STMT_PREPARE; COM_PING; COM_QUIT; COM_INIT_DB;
         COM_FIELD_LIST] →
  let msg := "command " +:+ fmt_d (Byte.to_N cmd) +:+ ":"
             +:+ CommandString cmd +:+ " not yet supported" in
  Handle writer {| handler := h; request := {| Raw := cmd :: payload |};
                   trace := t |}
  = (Returned (Some (SqlError ER_UNKNOWN_ERROR msg)),
     {| handler := h; request := {| Raw := payload |}; trace := t |})
  ∧ Contains (fmt_d (Byte.to_N cmd)) msg
  ∧ Contains (CommandString cmd) msg.
Proof.
  intros Hcmd msg.
  repeat (apply not_elem_of_cons in Hcmd as [? Hcmd]).
  split_and!.
  - go_unfold. simpl.
    rewrite !decide_False by (intuition congruence). reflexivity.
  - apply Contains_middle.
  - do 3 apply Contains_after. apply (Contains_middle EmptyString).
Qed.

End DispatchClaims.

Lemma unsupported_command_witness :
  Handle (env := Sample.protocol (Sample.planner_returns None None)) Sample.sink
    {| handler := Sample.connected; request := Sample.packet x00 EmptyString;
       trace := [] |}
  = (Returned (Some (SqlError 1105 "command 0:COM_SLEEP not yet supported")),
     {| handler := Sample.connected; request := {| Raw := [] |}; trace := [] |})
  ∧ Contains "0" "command 0:COM_SLEEP not yet supported"
  ∧ Contains "COM_SLEEP" "command 0:COM_SLEEP not yet supported".
Proof.
  apply (unsupported_command (env := Sample.protocol (Sample.planner_returns None None))
           Sample.sink Sample.connected [] x00 []).
  apply (bool_decide_unpack _). vm_compute. exact I.
Defined.

(** ** Opening and closing a connection *)

Section Connection.
Context {env : Collaborators}.

Lemma Close_closed (st : Store) :
  conn (handler st) = None → Close st = (Returned None, st).
Proof. intros E. go_unfold. by rewrite E. Qed.

Lemma after_closes_closed (n : nat) (st : Store) :
  conn (handler st) = None → after_closes n st = st.
Proof.
  intros C. induction n as [|n IH]; simpl; [done|].
  by rewrite Close_closed.
Qed.

(** C7. [Close] is idempotent: the first call closes the transport if
    there is one, exactly once, returns what the transport's close
    returned, and leaves the handler without a transport; every later
    call returns nil and changes nothing. *)
Theorem Close_idempotent (st : Store) :
  Close st
  = (Returned match conn (handler st) with
               | Some c => conn_Close c
               | None => None
               end,
     {| handler := set_conn None (handler st);
        request := request st;
        trace := trace st
                 ++ match conn (handler st) with
                    | Some c => [EvConnClose (conn_id c)]
                    | None => []
                    end |})
  ∧ ∀ n, Close (after_closes (S n) st)
         = (Returned None, after_closes (S n) st)
         ∧ after_closes (S n) st = snd (Close st).
Proof.
  assert (E : Close st
    = (Returned match conn (handler st) with
               | Some c => conn_Close c
               | None => None
               end,
       {| handler := set_conn None (handler st);
          request := request st;
          trace := trace st
                   ++ match conn (handler st) with
                      | Some c => [EvConnClose (conn_id c)]
                      | None => []
                      end |})).
  { go_unfold. destruct st as [[sh se [c|] sc] rq tr]; simpl; [done|].
    by rewrite app_nil_r. }
  split; [exact E|].
  assert (C : conn (handler (snd (Close st))) = None) by by rewrite E.
  intros n.
  change (after_closes (S n) st) with (after_closes n (snd (Close st))).
  rewrite (after_closes_closed n _ C).
  split; [by apply Close_closed | done].
Qed.

(** C2, as the code has it. [Open] has no error result: given anything
    but a [*proxy.Conn] it panics with a message naming the type it was
    given; given a [*proxy.Conn] it returns a new handler bound to it,
    with fresh session variables, no schema, and the shared part of the
    handler it was called on. *)
Theorem Open_panics_on_other_transport (m : MySqlHandler) :
  (∀ type_name,
      Open m (OtherValue type_name)
      = Panicked (PanicString ("not proxy.Conn? " +:+ type_name)))
  ∧ (∀ c,
      Open m (ProxyConn c)
      = Returned {| shared := shared m; sess := Some NewMySqlSessionVars;
                    conn := c; schema := None |}).
Proof. split; reflexivity. Qed.

End Connection.

(** C2, as stated, fails: handed a [*net.TCPConn], [Open] returns nothing,
    neither a handler nor an error; it panics. *)
Lemma Open_does_not_return_an_error :
  Open (env := Sample.protocol (Sample.planner_returns None None))
    Sample.template (OtherValue "*net.TCPConn")
  = Panicked (PanicString "not proxy.Conn? *net.TCPConn")
  ∧ ¬ ∃ h, Open (env := Sample.protocol (Sample.planner_returns None None))
             Sample.template (OtherValue "*net.TCPConn") = Returned h.
Proof. split; [reflexivity|]. intros [h E]. discriminate E. Qed.

(** ** Schemas *)

Section SchemaClaims.
Context {env : Collaborators}.

(** C4. With a name the registry does not know, [SchemaUse] logs a
    warning and returns nil without touching the handler, so the active
    schema stays what it was; the init-db command then returns the
    "Schema not found" error and writes no OK to the transport. *)
Theorem init_db_unknown_schema
    (writer : ResultWriter) (h : MySqlHandler) (t : list Event) (db : string) :
  ServerCtx_Schema (svr (shared h)) db = None →
  let t' := (t ++ [EvLog LvlWarn ("Could not find schema for db=" +:+ db)])%list in
  (∀ r, SchemaUse db {| handler := h; request := r; trace := t |}
        = (Returned None, {| handler := h; request := r; trace := t' |}))
  ∧ Handle writer {| handler := h;
                     request := {| Raw := COM_INIT_DB
                                          :: String.list_byte_of_string db |};
                     trace := t |}
    = (Returned (Some (ErrorString ("Schema not found " +:+ db))),
       {| handler := h;
          request := {| Raw := String.list_byte_of_string db |};
          trace := t' |}).
Proof.
  intros Hdb t'.
  assert (E : ∀ r, SchemaUse db {| handler := h; request := r; trace := t |}
                   = (Returned None,
                      {| handler := h; request := r; trace := t' |})).
  { intros r. go_unfold. simpl. by rewrite Hdb. }
  split; [exact E|].
  unfold Handle, chooseCommand. unfold bind at 1, gets at 1. simpl.
  unfold bind at 1, modify at 1, set_request. simpl.
  rewrite switch_cmd_init_db. simpl.
  unfold string_of_bytes. rewrite String.string_of_list_byte_of_string.
  unfold bind at 1. by rewrite E.
Qed.

(** C5. On a handler with no active schema a query command (query or
    prepare) returns the error "no schema in use", whatever the SQL text
    and whether or not recovery is suppressed; the planner is not called.
    That error differs, as a value and as a message, from the
    "Schema not found" error of init-db for every name. *)
Theorem query_without_schema
    (writer : ResultWriter) (h : MySqlHandler) (t : list Event)
    (cmd : byte) (sql : list byte) :
  schema h = None →
  cmd = COM_QUERY ∨ cmd = COM_STMT_PREPARE →
  Handle writer {| handler := h; request := {| Raw := cmd :: sql |};
                   trace := t |}
  = (Returned (Some (ErrorString "no schema in use")),
     {| handler := h; request := {| Raw := sql |};
        trace := t ++ [EvLog LvlWarn "missing schema?  "] |})
  ∧ ∀ db, no_schema_in_use ≠ schema_not_found db
          ∧ error_text no_schema_in_use ≠ error_text (schema_not_found db).
Proof.
  intros Hs Hcmd. split.
  - unfold Handle, chooseCommand. unfold bind at 1, gets at 1. simpl.
    unfold bind at 1, modify at 1, set_request. simpl.
    rewrite switch_cmd_query by done.
    unfold handleQuery, handleQuery_body. go_unfold. simpl.
    rewrite Hs. reflexivity.
  - intros db. split; intros E; discriminate E.
Qed.

End SchemaClaims.

Lemma init_db_unknown_schema_witness :
  (∀ r, SchemaUse "nope"
          {| handler := Sample.connected; request := r; trace := [] |}
        = (Returned None,
           {| handler := Sample.connected; request := r;
              trace := [EvLog LvlWarn "Could not find schema for db=nope"] |}))
  ∧ Handle (env := Sample.protocol (Sample.planner_returns None None)) Sample.sink
      {| handler := Sample.connected; request := Sample.packet x02 "nope";
         trace := [] |}
    = (Returned (Some (ErrorString "Schema not found nope")),
       {| handler := Sample.connected;
          request := {| Raw := String.list_byte_of_string "nope" |};
          trace := [EvLog LvlWarn "Could not find schema for db=nope"] |}).
Proof.
  apply (init_db_unknown_schema
           (env := Sample.protocol (Sample.planner_returns None None))
           Sample.sink Sample.connected [] "nope").
  vm_compute. reflexivity.
Defined.

Lemma query_without_schema_witness :
  Handle (env := Sample.protocol (Sample.planner_returns None None)) Sample.sink
    {| handler := Sample.connected; request := Sample.packet x03 "select 1";
       trace := [] |}
  = (Returned (Some (ErrorString "no schema in use")),
     {| handler := Sample.connected;
        request := {| Raw := String.list_byte_of_string "select 1" |};
        trace := [EvLog LvlWarn "missing schema?  "] |})
  ∧ ∀ db, no_schema_in_use ≠ schema_not_found db
          ∧ error_text
              (env := Sample.protocol (Sample.planner_returns None None))
              no_schema_in_use
            ≠ error_text
                (env := Sample.protocol (Sample.planner_returns None None))
                (schema_not_found db).
Proof.
  apply (query_without_schema
           (env := Sample.protocol (Sample.planner_returns None None))
           Sample.sink Sample.connected [] x03
           (String.list_byte_of_string "select 1")).
  - reflexivity.
  - left. reflexivity.
Defined.

(** ** The query pipeline *)

Lemma closes_app (j : N) (t1 t2 : list Event) :
  closes j (t1 ++ t2) = closes j t1 + closes j t2.
Proof.
  induction t1 as [|e t1 IH]; [done|].
  destruct e; simpl; try exact IH.
  destruct (_ =? _)%N; simpl; by rewrite IH.
Qed.

Lemma closes_close (j : N) : closes j [EvJobClose j] = 1.
Proof. simpl. by rewrite N.eqb_refl. Qed.

(** Evaluate [handleQuery] once the planner's answer is known. *)
Ltac run_query Hplan :=
  unfold handleQuery, handleQuery_body, finalize_run_close;
  go_unfold; cbn -[query_context HasPrefix];
  rewrite ?Hplan; cbn -[query_context HasPrefix].

Section QueryClaims.
Context {env : Collaborators}.

(** C3. When the planner fails on a query of a handler that has a schema
    and a transport: if the lowercased SQL text begins with "set ", OK is
    written to the transport and the result is that write's, not the
    planning error; otherwise nothing is written and the planning error
    is returned as it is. *)
Theorem plan_error_fallback
    (writer : ResultWriter) (h : MySqlHandler) (r : Request) (t : list Event)
    (sql : string) (s : Schema) (c : Conn) (job : option Job) (err : GoError) :
  schema h = Some s →
  conn h = Some c →
  BuildMySqlJob (svr (shared h)) (query_context h sql)
  = Returned (job, Some err) →
  handleQuery writer sql {| handler := h; request := r; trace := t |}
  = if HasPrefix (ToLower sql) "set " then
      (Returned (conn_WriteOK c),
       {| handler := h; request := r;
          trace := t ++ [EvBuildJob (query_context h sql);
                         EvConnWriteOK (conn_id c)] |})
    else
      (Returned (Some err),
       {| handler := h; request := r;
          trace := t ++ [EvBuildJob (query_context h sql);
                         EvLog LvlDebug ("error on parse sql statement: "
                                         +:+ error_text err)] |}).
Proof.
  intros Hs Hc Hplan. run_query Hplan.
  rewrite Hs. cbn -[query_context HasPrefix]. rewrite Hplan.
  cbn -[query_context HasPrefix].
  destruct (HasPrefix (ToLower sql) "set ").
  - cbn. rewrite Hc. cbn. by rewrite <- app_assoc.
  - cbn. by rewrite <- app_assoc.
Qed.

End QueryClaims.

Lemma plan_error_fallback_witness :
  handleQuery
    (env := Sample.protocol (Sample.planner_returns None (Some Sample.parse_error)))
    Sample.sink "SET autocommit=1"
    {| handler := Sample.using_test; request := {| Raw := [] |}; trace := [] |}
  = (Returned None,
     {| handler := Sample.using_test; request := {| Raw := [] |};
        trace := [EvBuildJob {| ctx_Raw := "SET autocommit=1";
                                ctx_DisableRecover := false;
                                ctx_Session := Some {| session_vars := ∅ |};
                                ctx_Schema := Some Sample.test_schema |};
                  EvConnWriteOK 1] |}).
Proof.
  exact (plan_error_fallback
           (env := Sample.protocol
                   (Sample.planner_returns None (Some Sample.parse_error)))
           Sample.sink Sample.using_test {| Raw := [] |} [] "SET autocommit=1"
           Sample.test_schema Sample.client None Sample.parse_error
           eq_refl eq_refl eq_refl).
Defined.

(** A statement that is not a [SET] and does not parse: the parse error
    comes back unchanged and no OK is written. *)
Example select_parse_error_is_returned :
  fst (handleQuery
         (env := Sample.protocol
                 (Sample.planner_returns None (Some Sample.parse_error)))
         Sample.sink "selec 1"
         {| handler := Sample.using_test; request := {| Raw := [] |};
            trace := [] |})
  = Returned (Some Sample.parse_error).
Proof. reflexivity. Qed.

Section JobLifecycle.
Context {env : Collaborators}.

(** Once [Finalize] has succeeded and [Run] has returned, with or
    without an error, [Close] is called on the job exactly once and
    [Run]'s result is returned. *)
Lemma finalize_run_close_closes_once
    (job : Job) (w : Task) (st : Store) (res c : option GoError) :
  job_Finalize job = Returned None →
  job_Run job = Returned res →
  job_Close job = Returned c →
  ∃ st', finalize_run_close job w st = (Returned res, st')
         ∧ handler st' = handler st
         ∧ closes (job_id job) (trace st') = S (closes (job_id job) (trace st)).
Proof.
  intros HF HR HC. unfold finalize_run_close. go_unfold.
  rewrite HF, HR, HC. cbn -[closes].
  destruct res as [e|]; cbn -[closes]; eexists;
    (split_and!; [reflexivity|done|]); cbn -[closes];
    rewrite !closes_app, closes_close; cbn; lia.
Qed.

(** C1 on the code. When [Finalize] returns an error, [handleQuery]
    logs it and returns it at once: [Run] is not attempted and [Close]
    is not called on the job the planner returned. *)
Theorem Finalize_error_skips_Close
    (writer : ResultWriter) (h : MySqlHandler) (r : Request) (t : list Event)
    (sql : string) (s : Schema) (job : Job) (e : GoError) :
  schema h = Some s →
  BuildMySqlJob (svr (shared h)) (query_context h sql)
  = Returned (Some job, None) →
  has_writer (job_Stmt job) = true →
  job_Finalize job = Returned (Some e) →
  ∃ w,
    handleQuery writer sql {| handler := h; request := r; trace := t |}
    = (Returned (Some e),
       {| handler := h; request := r;
          trace := t ++ [EvBuildJob (query_context h sql);
                         EvJobFinalize (job_id job) w;
                         EvLog LvlError ("error on finalize "
                                         +:+ error_text e)] |})
    ∧ closes (job_id job)
        (trace (snd (handleQuery writer sql
                       {| handler := h; request := r; trace := t |})))
      = closes (job_id job) t.
Proof.
  intros Hs Hplan Hw HF.
  assert (E : ∃ w,
    handleQuery writer sql {| handler := h; request := r; trace := t |}
    = (Returned (Some e),
       {| handler := h; request := r;
          trace := t ++ [EvBuildJob (query_context h sql);
                         EvJobFinalize (job_id job) w;
                         EvLog LvlError ("error on finalize "
                                         +:+ error_text e)] |})).
  { run_query Hplan. rewrite Hs. cbn -[query_context HasPrefix].
    rewrite Hplan. cbn -[query_context HasPrefix].
    destruct (job_Stmt job); try discriminate Hw;
      cbn -[query_context]; rewrite HF; cbn -[query_context];
      rewrite <- !app_assoc; eexists; reflexivity. }
  destruct E as [w E]. exists w. split; [exact E|].
  rewrite E. cbn -[query_context closes]. rewrite closes_app.
  cbn. lia.
Qed.

(** The path the claim describes: with a job whose statement has a
    writer, whose [Finalize] succeeds and whose [Run] and [Close] return,
    [handleQuery] returns [Run]'s result and has closed the job once. *)
Lemma handleQuery_closes_after_Run
    (writer : ResultWriter) (h : MySqlHandler) (r : Request) (t : list Event)
    (sql : string) (s : Schema) (job : Job) (res c : option GoError) :
  schema h = Some s →
  BuildMySqlJob (svr (shared h)) (query_context h sql)
  = Returned (Some job, None) →
  has_writer (job_Stmt job) = true →
  job_Finalize job = Returned None →
  job_Run job = Returned res →
  job_Close job = Returned c →
  let out := handleQuery writer sql
               {| handler := h; request := r; trace := t |} in
  fst out = Returned res
  ∧ closes (job_id job) (trace (snd out)) = S (closes (job_id job) t).
Proof.
  intros Hs Hplan Hw HF HR HC.
  unfold handleQuery, handleQuery_body.
  unfold in_store, zoom, bind, gets, ret, call, emit, modify.
  cbn -[query_context HasPrefix finalize_run_close closes].
  rewrite Hs. cbn -[query_context HasPrefix finalize_run_close closes].
  rewrite Hplan. cbn -[query_context HasPrefix finalize_run_close closes].
  destruct (job_Stmt job); try discriminate Hw;
    match goal with
    | |- context [finalize_run_close job ?w ?st] =>
        destruct (finalize_run_close_closes_once job w st res c HF HR HC)
          as (st' & -> & _ & Hc)
    end;
    cbn -[query_context closes] in *; rewrite Hc, closes_app; cbn; (split; [done|lia]).
Qed.

End JobLifecycle.

Lemma Finalize_error_skips_Close_witness :
  ∃ w,
    handleQuery
      (env := Sample.protocol
              (Sample.planner_returns (Some Sample.job_unfinalized) None))
      Sample.sink "select 1"
      {| handler := Sample.using_test; request := {| Raw := [] |}; trace := [] |}
    = (Returned (Some (ForeignError "no worker node ready")),
       {| handler := Sample.using_test; request := {| Raw := [] |};
          trace := [EvBuildJob {| ctx_Raw := "select 1";
                                  ctx_DisableRecover := false;
                                  ctx_Session := Some {| session_vars := ∅ |};
                                  ctx_Schema := Some Sample.test_schema |};
                    EvJobFinalize 7 w;
                    EvLog LvlError "error on finalize no worker node ready"] |})
    ∧ closes 7
        (trace (snd (handleQuery
                       (env := Sample.protocol
                               (Sample.planner_returns
                                  (Some Sample.job_unfinalized) None))
                       Sample.sink "select 1"
                       {| handler := Sample.using_test;
                          request := {| Raw := [] |}; trace := [] |})))
      = 0.
Proof.
  exact (Finalize_error_skips_Close
           (env := Sample.protocol
                   (Sample.planner_returns (Some Sample.job_unfinalized) None))
           Sample.sink Sample.using_test {| Raw := [] |} [] "select 1"
           Sample.test_schema Sample.job_unfinalized
           (ForeignError "no worker node ready")
           eq_refl eq_refl eq_refl eq_refl).
Defined.

(** A [SELECT] whose [Run] fails: the job is closed once and [Run]'s error
    is returned. *)
Example failing_Run_is_closed :
  let out := handleQuery
               (env := Sample.protocol
                       (Sample.planner_returns (Some Sample.job_failing) None))
               Sample.sink "select 1"
               {| handler := Sample.using_test; request := {| Raw := [] |};
                  trace := [] |} in
  fst out = Returned (Some (ForeignError "backend unreachable"))
  ∧ closes 8 (trace (snd out)) = 1.
Proof. split; reflexivity. Qed.

(** * Further properties of the handler *)

(** ** What a query leaves alone *)

(** Case analysis on everything [handleQuery] branches on, from the
    outside in: the schema, the planner's answer, the statement, the three
    job calls, the transport and the recovery flag. *)
Ltac query_step := cbn -[query_context HasPrefix closes] in *.
Ltac query_cases h :=
  destruct (schema h); query_step;
  [ destruct (BuildMySqlJob _ _) as [[[?job|] [?err|]]|?v]; query_step;
    try (destruct (HasPrefix _ _); query_step);
    try (destruct (job_Stmt _); query_step);
    try (destruct (job_Finalize _) as [[?e|]|?v]; query_step);
    try (destruct (job_Run _) as [[?e|]|?v]; query_step);
    try (destruct (job_Close _) as [?c|?v]; query_step);
    try (destruct (conn h); query_step);
    try (destruct (SupressRecover _); query_step)
  | try (destruct (SupressRecover _); query_step) ].

Section QueryFrame.
Context {env : Collaborators}.

(** [handleQuery] as a store transformer: the handler and the request
    come back as they went in, and events are appended to the trace. *)
Lemma handleQuery_frame
    (writer : ResultWriter) (sql : string)
    (h : MySqlHandler) (r : Request) (t : list Event) :
  ∃ out evs,
    handleQuery writer sql {| handler := h; request := r; trace := t |}
    = (out, {| handler := h; request := r; trace := t ++ evs |}).
Proof.
  unfold handleQuery, handleQuery_body, finalize_run_close. go_unfold.
  cbn -[query_context HasPrefix closes].
  query_cases h; rewrite <- ?app_assoc; eexists _, _; reflexivity.
Qed.

(** On a handler with a schema the first event of a query is the call of
    the planner. *)
Lemma handleQuery_first_event
    (writer : ResultWriter) (sql : string)
    (h : MySqlHandler) (r : Request) (t : list Event) (s : Schema) :
  schema h = Some s →
  ∃ evs,
    trace (snd (handleQuery writer sql
                  {| handler := h; request := r; trace := t |}))
    = (t ++ EvBuildJob (query_context h sql) :: evs)%list.
Proof.
  revert s.
  unfold handleQuery, handleQuery_body, finalize_run_close. go_unfold.
  cbn -[query_context HasPrefix closes].
  query_cases h; intros s' Hs; try discriminate Hs;
    rewrite <- ?app_assoc; cbn -[query_context]; eexists; reflexivity.
Qed.


End QueryFrame.

(** ** Faults and recovery *)

Section Recovery.
Context {env : Collaborators}.

(** X2. Unless [SupressRecover] is set, [handleQuery] always returns: a
    fault of the planner, the job or the transport never leaves it as a
    panic. *)
Theorem handleQuery_recovers
    (writer : ResultWriter) (sql : string) (st : Store) :
  SupressRecover (Config (svr (shared (handler st)))) = false →
  ∃ err, fst (handleQuery writer sql st) = Returned err.
Proof.
  intros Hrec. unfold handleQuery. rewrite Hrec.
  destruct (handleQuery_body writer _) as [[err|v] fr]; cbn; eauto.
Qed.

(** X3. A fault of the planner: with recovery it is logged and returned as
    the error "handle query <sql> error <fault>", with the SQL text as it
    was received; with [SupressRecover] it leaves [handleQuery] as a
    panic. *)
Theorem planner_fault
    (writer : ResultWriter) (h : MySqlHandler) (r : Request) (t : list Event)
    (sql : string) (s : Schema) (v : PanicValue) :
  schema h = Some s →
  BuildMySqlJob (svr (shared h)) (query_context h sql) = Panicked v →
  handleQuery writer sql {| handler := h; request := r; trace := t |}
  = if SupressRecover (Config (svr (shared h))) then
      (Panicked v,
       {| handler := h; request := r;
          trace := t ++ [EvBuildJob (query_context h sql)] |})
    else
      (Returned (Some (ErrorString ("handle query " +:+ sql +:+ " error "
                                    +:+ fmt_v_panic v))),
       {| handler := h; request := r;
          trace := t ++ [EvBuildJob (query_context h sql);
                         EvLog LvlError ("recover? " +:+ fmt_v_panic v)] |}).
Proof.
  intros Hs Hplan. run_query Hplan.
  rewrite Hs. cbn -[query_context HasPrefix]. rewrite Hplan.
  cbn -[query_context HasPrefix].
  destruct (SupressRecover _); cbn -[query_context]; [done|].
  by rewrite <- app_assoc.
Qed.

(** X4. A fault of [Run]: the job was finalized and started, and it is never
    closed, with or without recovery. *)
Theorem Run_fault_skips_Close
    (writer : ResultWriter) (h : MySqlHandler) (r : Request) (t : list Event)
    (sql : string) (s : Schema) (job : Job) (v : PanicValue) :
  schema h = Some s →
  BuildMySqlJob (svr (shared h)) (query_context h sql)
  = Returned (Some job, None) →
  has_writer (job_Stmt job) = true →
  job_Finalize job = Returned None →
  job_Run job = Panicked v →
  let out := handleQuery writer sql
               {| handler := h; request := r; trace := t |} in
  fst out
  = (if SupressRecover (Config (svr (shared h))) then Panicked v
     else Returned (Some (ErrorString ("handle query " +:+ sql +:+ " error "
                                       +:+ fmt_v_panic v))))
  ∧ closes (job_id job) (trace (snd out)) = closes (job_id job) t
  ∧ EvJobRun (job_id job) ∈ trace (snd out).
Proof.
  intros Hs Hplan Hw HF HR. run_query Hplan.
  rewrite Hs. cbn -[query_context HasPrefix closes]. rewrite Hplan.
  cbn -[query_context HasPrefix closes].
  destruct (job_Stmt job); try discriminate Hw;
    cbn -[query_context closes]; rewrite HF; cbn -[query_context closes];
    rewrite HR; cbn -[query_context closes];
    destruct (SupressRecover _); cbn -[query_context closes];
    rewrite <- ?app_assoc; rewrite closes_app;
    (split_and!; [done | cbn; lia |]);
    rewrite !elem_of_app; right; cbn;
    rewrite !elem_of_cons; auto.
Qed.

End Recovery.

Lemma handleQuery_recovers_witness :
  ∃ err,
    fst (handleQuery
           (env := Sample.protocol
                     (Sample.planner_panics (PanicString "bad plan")))
           Sample.sink "select 1"
           {| handler := Sample.using_test; request := {| Raw := [] |};
              trace := [] |})
    = Returned err.
Proof.
  apply (handleQuery_recovers
           (env := Sample.protocol
                     (Sample.planner_panics (PanicString "bad plan")))
           Sample.sink "select 1"
           {| handler := Sample.using_test; request := {| Raw := [] |};
              trace := [] |}).
  reflexivity.
Defined.

Lemma planner_fault_witness :
  handleQuery
    (env := Sample.protocol (Sample.planner_panics (PanicString "bad plan")))
    Sample.sink "select 1"
    {| handler := Sample.using_test; request := {| Raw := [] |}; trace := [] |}
  = (Returned (Some (ErrorString "handle query select 1 error bad plan")),
     {| handler := Sample.using_test; request := {| Raw := [] |};
        trace := [EvBuildJob {| ctx_Raw := "select 1";
                                ctx_DisableRecover := false;
                                ctx_Session := Some {| session_vars := ∅ |};
                                ctx_Schema := Some Sample.test_schema |};
                  EvLog LvlError "recover? bad plan"] |}).
Proof.
  exact (planner_fault
           (env := Sample.protocol
                     (Sample.planner_panics (PanicString "bad plan")))
           Sample.sink Sample.using_test {| Raw := [] |} [] "select 1"
           Sample.test_schema (PanicString "bad plan") eq_refl eq_refl).
Defined.

Lemma Run_fault_skips_Close_witness :
  let out := handleQuery
               (env := Sample.protocol
                         (Sample.planner_returns (Some Sample.job_faulting) None))
               Sample.sink "select 1"
               {| handler := Sample.using_test; request := {| Raw := [] |};
                  trace := [] |} in
  fst out
  = Returned (Some (ErrorString
                      "handle query select 1 error unexpected row shape"))
  ∧ closes 11 (trace (snd out)) = 0
  ∧ EvJobRun 11 ∈ trace (snd out).
Proof.
  exact (Run_fault_skips_Close
           (env := Sample.protocol
                     (Sample.planner_returns (Some Sample.job_faulting) None))
           Sample.sink Sample.using_test {| Raw := [] |} [] "select 1"
           Sample.test_schema Sample.job_faulting
           (PanicString "unexpected row shape")
           eq_refl eq_refl eq_refl eq_refl eq_refl).
Defined.

(** ** The outcomes of planning *)

Section Planning.
Context {env : Collaborators}.

(** X5. The planner answers [(nil, nil)]: the query was handled during
    planning, and [handleQuery] returns nil having called nothing else, not
    even the transport. *)
Theorem planner_handled_query
    (writer : ResultWriter) (h : MySqlHandler) (r : Request) (t : list Event)
    (sql : string) (s : Schema) :
  schema h = Some s →
  BuildMySqlJob (svr (shared h)) (query_context h sql) = Returned (None, None) →
  handleQuery writer sql {| handler := h; request := r; trace := t |}
  = (Returned None,
     {| handler := h; request := r;
        trace := t ++ [EvBuildJob (query_context h sql)] |}).
Proof.
  intros Hs Hplan. run_query Hplan.
  rewrite Hs. cbn -[query_context HasPrefix]. rewrite Hplan. done.
Qed.

(** X6. A job for a [*rel.SqlCommand]: OK is written to the transport and the
    write's result is returned; the job is not finalized, not run and not
    closed. *)
Theorem command_job_bypasses_job
    (writer : ResultWriter) (h : MySqlHandler) (r : Request) (t : list Event)
    (sql : string) (s : Schema) (c : Conn) (job : Job) :
  schema h = Some s →
  conn h = Some c →
  BuildMySqlJob (svr (shared h)) (query_context h sql)
  = Returned (Some job, None) →
  job_Stmt job = SqlCommand →
  handleQuery writer sql {| handler := h; request := r; trace := t |}
  = (Returned (conn_WriteOK c),
     {| handler := h; request := r;
        trace := t ++ [EvBuildJob (query_context h sql);
                       EvConnWriteOK (conn_id c)] |}).
Proof.
  intros Hs Hc Hplan Hstmt. run_query Hplan.
  rewrite Hs. cbn -[query_context HasPrefix]. rewrite Hplan.
  cbn -[query_context HasPrefix]. rewrite Hstmt. cbn -[query_context].
  rewrite Hc. cbn -[query_context]. by rewrite <- app_assoc.
Qed.

(** X7. A job whose statement is of any other type: a warning is logged and
    the error "statement type <T> not supported" is returned; nothing is
    written to the transport and the job is not finalized, not run and not
    closed. *)
Theorem unsupported_statement
    (writer : ResultWriter) (h : MySqlHandler) (r : Request) (t : list Event)
    (sql : string) (s : Schema) (job : Job) (type_name text : string) :
  schema h = Some s →
  BuildMySqlJob (svr (shared h)) (query_context h sql)
  = Returned (Some job, None) →
  job_Stmt job = OtherStatement type_name text →
  handleQuery writer sql {| handler := h; request := r; trace := t |}
  = (Returned (Some (ErrorString ("statement type " +:+ type_name
                                  +:+ " not supported"))),
     {| handler := h; request := r;
        trace := t ++ [EvBuildJob (query_context h sql);
                       EvLog LvlWarn ("sql not supported?  " +:+ text
                                      +:+ "  " +:+ type_name)] |}).
Proof.
  intros Hs Hplan Hstmt. run_query Hplan.
  rewrite Hs. cbn -[query_context HasPrefix]. rewrite Hplan.
  cbn -[query_context HasPrefix]. rewrite Hstmt. cbn -[query_context].
  by rewrite <- app_assoc.
Qed.

(** X8. The full pipeline. For a job whose [Finalize] succeeds and whose
    [Run] and [Close] return, the calls are, in this order: the planner,
    [Finalize] with the writer of the statement's kind (the result writer
    for [SELECT], the schema writer for [SHOW] and [DESCRIBE], the exec
    writer for [INSERT], [UPSERT], [UPDATE] and [DELETE]), [Run], a log
    line if [Run] failed, [Close]. The result is [Run]'s; what [Close]
    returns is dropped. *)
Theorem pipeline_order
    (writer : ResultWriter) (h : MySqlHandler) (r : Request) (t : list Event)
    (sql : string) (s : Schema) (job : Job) (res c : option GoError) :
  schema h = Some s →
  BuildMySqlJob (svr (shared h)) (query_context h sql)
  = Returned (Some job, None) →
  has_writer (job_Stmt job) = true →
  job_Finalize job = Returned None →
  job_Run job = Returned res →
  job_Close job = Returned c →
  handleQuery writer sql {| handler := h; request := r; trace := t |}
  = (Returned res,
     {| handler := h; request := r;
        trace :=
          t ++ [EvBuildJob (query_context h sql);
                EvJobFinalize (job_id job)
                  match job_Stmt job with
                  | SqlSelect => MySqlResultWriter writer (job_id job)
                  | SqlShow | SqlDescribe => MySqlSchemaWriter writer (job_id job)
                  | _ => MySqlExecResultWriter writer (job_id job)
                  end;
                EvJobRun (job_id job)]
            ++ match res with
               | Some e => [EvLog LvlError ("error on Query.Run(): "
                                            +:+ error_text e)]
               | None => []
               end
            ++ [EvJobClose (job_id job)] |}).
Proof.
  intros Hs Hplan Hw HF HR HC. run_query Hplan.
  rewrite Hs. cbn -[query_context HasPrefix]. rewrite Hplan.
  cbn -[query_context HasPrefix].
  destruct (job_Stmt job); try discriminate Hw;
    cbn -[query_context]; rewrite HF; cbn -[query_context];
    rewrite HR; cbn -[query_context];
    destruct res; cbn -[query_context]; rewrite HC; cbn -[query_context];
    rewrite <- ?app_assoc; reflexivity.
Qed.

End Planning.

Lemma planner_handled_query_witness :
  handleQuery
    (env := Sample.protocol (Sample.planner_returns None None))
    Sample.sink "show tables"
    {| handler := Sample.using_test; request := {| Raw := [] |}; trace := [] |}
  = (Returned None,
     {| handler := Sample.using_test; request := {| Raw := [] |};
        trace := [EvBuildJob {| ctx_Raw := "show tables";
                                ctx_DisableRecover := false;
                                ctx_Session := Some {| session_vars := ∅ |};
                                ctx_Schema := Some Sample.test_schema |}] |}).
Proof.
  exact (planner_handled_query
           (env := Sample.protocol (Sample.planner_returns None None))
           Sample.sink Sample.using_test {| Raw := [] |} [] "show tables"
           Sample.test_schema eq_refl eq_refl).
Defined.

Lemma command_job_bypasses_job_witness :
  handleQuery
    (env := Sample.protocol
              (Sample.planner_returns (Some Sample.job_command) None))
    Sample.sink "rollback"
    {| handler := Sample.using_test; request := {| Raw := [] |}; trace := [] |}
  = (Returned None,
     {| handler := Sample.using_test; request := {| Raw := [] |};
        trace := [EvBuildJob {| ctx_Raw := "rollback";
                                ctx_DisableRecover := false;
                                ctx_Session := Some {| session_vars := ∅ |};
                                ctx_Schema := Some Sample.test_schema |};
                  EvConnWriteOK 1] |}).
Proof.
  exact (command_job_bypasses_job
           (env := Sample.protocol
                     (Sample.planner_returns (Some Sample.job_command) None))
           Sample.sink Sample.using_test {| Raw := [] |} [] "rollback"
           Sample.test_schema Sample.client Sample.job_command
           eq_refl eq_refl eq_refl eq_refl).
Defined.

Lemma unsupported_statement_witness :
  handleQuery
    (env := Sample.protocol
              (Sample.planner_returns (Some Sample.job_unsupported) None))
    Sample.sink "create table t"
    {| handler := Sample.using_test; request := {| Raw := [] |}; trace := [] |}
  = (Returned (Some (ErrorString
                       "statement type *rel.SqlCreate not supported")),
     {| handler := Sample.using_test; request := {| Raw := [] |};
        trace := [EvBuildJob {| ctx_Raw := "create table t";
                                ctx_DisableRecover := false;
                                ctx_Session := Some {| session_vars := ∅ |};
                                ctx_Schema := Some Sample.test_schema |};
                  EvLog LvlWarn
                    "sql not supported?  CREATE TABLE t  *rel.SqlCreate"] |}).
Proof.
  exact (unsupported_statement
           (env := Sample.protocol
                     (Sample.planner_returns (Some Sample.job_unsupported) None))
           Sample.sink Sample.using_test {| Raw := [] |} [] "create table t"
           Sample.test_schema Sample.job_unsupported
           "*rel.SqlCreate" "CREATE TABLE t"
           eq_refl eq_refl eq_refl).
Defined.

Lemma pipeline_order_witness :
  handleQuery
    (env := Sample.protocol
              (Sample.planner_returns (Some Sample.job_insert) None))
    Sample.sink "insert into t values (1)"
    {| handler := Sample.using_test; request := {| Raw := [] |}; trace := [] |}
  = (Returned None,
     {| handler := Sample.using_test; request := {| Raw := [] |};
        trace := [EvBuildJob {| ctx_Raw := "insert into t values (1)";
                                ctx_DisableRecover := false;
                                ctx_Session := Some {| session_vars := ∅ |};
                                ctx_Schema := Some Sample.test_schema |};
                  EvJobFinalize 12 (MySqlExecResultWriter Sample.sink 12);
                  EvJobRun 12;
                  EvJobClose 12] |}).
Proof.
  exact (pipeline_order
           (env := Sample.protocol
                     (Sample.planner_returns (Some Sample.job_insert) None))
           Sample.sink Sample.using_test {| Raw := [] |} []
           "insert into t values (1)"
           Sample.test_schema Sample.job_insert None
           (Some (ForeignError "already closed"))
           eq_refl eq_refl eq_refl eq_refl eq_refl eq_refl).
Defined.

(** ** Ping, quit and init-db *)

(** Evaluate [Handle] on a request that starts with [cmd]. *)
Ltac dispatch_on D :=
  unfold Handle, chooseCommand, switch_cmd;
  unfold bind at 1, gets at 1; cbn [request Raw];
  unfold bind at 1, modify at 1, set_request; cbn [handler request trace Raw];
  pose proof command_cases as D.

(** Evaluate [Handle] on an init-db request up to the registry lookup. *)
Ltac init_db_eval :=
  unfold Handle, chooseCommand; unfold bind at 1, gets at 1; simpl;
  unfold bind at 1, modify at 1, set_request; simpl;
  rewrite switch_cmd_init_db; simpl;
  unfold string_of_bytes; rewrite String.string_of_list_byte_of_string;
  go_unfold; cbn.

Section Commands.
Context {env : Collaborators}.

(** X9. Ping on a handler with a transport: OK is written once and the
    write's result is returned; the payload is ignored and the handler is
    left as it was. *)
Theorem ping_writes_OK
    (writer : ResultWriter) (h : MySqlHandler) (t : list Event)
    (payload : list byte) (c : Conn) :
  conn h = Some c →
  Handle writer {| handler := h; request := {| Raw := COM_PING :: payload |};
                   trace := t |}
  = (Returned (conn_WriteOK c),
     {| handler := h; request := {| Raw := payload |};
        trace := t ++ [EvConnWriteOK (conn_id c)] |}).
Proof.
  intros Hc. dispatch_on D.
  rewrite !decide_False by (intuition congruence).
  rewrite decide_True by done.
  go_unfold. cbn. rewrite Hc. done.
Qed.

(** X10. Quit closes the transport, if the handler has one, and returns nil
    even when the transport's close returned an error; afterwards the
    handler has no transport. The schema and the session stay. *)
Theorem quit_drops_close_error
    (writer : ResultWriter) (h : MySqlHandler) (t : list Event)
    (payload : list byte) :
  Handle writer {| handler := h; request := {| Raw := COM_QUIT :: payload |};
                   trace := t |}
  = (Returned None,
     {| handler := set_conn None h; request := {| Raw := payload |};
        trace := t ++ match conn h with
                      | Some c => [EvConnClose (conn_id c)]
                      | None => []
                      end |}).
Proof.
  dispatch_on D.
  rewrite !decide_False by (intuition congruence).
  rewrite decide_True by done.
  go_unfold. cbn. destruct h as [sh se [c|] sc]; cbn; [done|].
  by rewrite app_nil_r.
Qed.

(** X11. Init-db with a name the registry knows, on a handler with a
    transport: the schema found becomes the active one, OK is written, and
    the write's result is returned. The schema is switched before the
    write, so it is switched also when the write fails. *)
Theorem init_db_known_schema
    (writer : ResultWriter) (h : MySqlHandler) (t : list Event)
    (db : string) (s : Schema) (c : Conn) :
  ServerCtx_Schema (svr (shared h)) db = Some s →
  conn h = Some c →
  Handle writer {| handler := h;
                   request := {| Raw := COM_INIT_DB
                                        :: String.list_byte_of_string db |};
                   trace := t |}
  = (Returned (conn_WriteOK c),
     {| handler := set_schema (Some s) h;
        request := {| Raw := String.list_byte_of_string db |};
        trace := t ++ [EvConnWriteOK (conn_id c)] |}).
Proof.
  intros Hdb Hc. init_db_eval. rewrite Hdb. cbn. rewrite Hc. done.
Qed.

End Commands.

Lemma ping_writes_OK_witness :
  Handle (env := Sample.protocol (Sample.planner_returns None None)) Sample.sink
    {| handler := Sample.connected; request := Sample.packet x0e "ignored";
       trace := [] |}
  = (Returned None,
     {| handler := Sample.connected;
        request := {| Raw := String.list_byte_of_string "ignored" |};
        trace := [EvConnWriteOK 1] |}).
Proof.
  exact (ping_writes_OK
           (env := Sample.protocol (Sample.planner_returns None None))
           Sample.sink Sample.connected []
           (String.list_byte_of_string "ignored") Sample.client eq_refl).
Defined.

Lemma init_db_known_schema_witness :
  Handle (env := Sample.protocol (Sample.planner_returns None None)) Sample.sink
    {| handler := Sample.connected; request := Sample.packet x02 "test";
       trace := [] |}
  = (Returned None,
     {| handler := Sample.using_test;
        request := {| Raw := String.list_byte_of_string "test" |};
        trace := [EvConnWriteOK 1] |}).
Proof.
  exact (init_db_known_schema
           (env := Sample.protocol (Sample.planner_returns None None))
           Sample.sink Sample.connected [] "test" Sample.test_schema
           Sample.client eq_refl eq_refl).
Defined.

(** ** Sessions *)

Section Sessions.
Context {env : Collaborators}.

(** A query command hands the rest of the payload to [handleQuery]. *)
Lemma Handle_query
    (writer : ResultWriter) (h : MySqlHandler) (t : list Event)
    (cmd : byte) (sql : list byte) :
  cmd = COM_QUERY ∨ cmd = COM_STMT_PREPARE →
  Handle writer {| handler := h; request := {| Raw := cmd :: sql |};
                   trace := t |}
  = handleQuery writer (string_of_bytes sql)
      {| handler := h; request := {| Raw := sql |}; trace := t |}.
Proof.
  intros Hcmd.
  unfold Handle, chooseCommand. unfold bind at 1, gets at 1. cbn [request Raw].
  unfold bind at 1, modify at 1, set_request. cbn [handler request trace].
  by rewrite switch_cmd_query.
Qed.

(** X12. On a handler with a schema, the first thing a query does is to call
    the planner, with the SQL text as it was received (never lowercased),
    the handler's session and schema, and the server's recovery flag. *)
Theorem query_calls_planner_first
    (writer : ResultWriter) (h : MySqlHandler) (r : Request) (t : list Event)
    (sql : string) (s : Schema) :
  schema h = Some s →
  ∃ evs,
    trace (snd (handleQuery writer sql
                  {| handler := h; request := r; trace := t |}))
    = (t ++ EvBuildJob {| ctx_Raw := sql;
                          ctx_DisableRecover :=
                            SupressRecover (Config (svr (shared h)));
                          ctx_Session := sess h;
                          ctx_Schema := Some s |} :: evs)%list.
Proof.
  intros Hs.
  destruct (handleQuery_first_event writer sql h r t s Hs) as [evs E].
  exists evs. rewrite E. unfold query_context. cbn. by rewrite Hs.
Qed.

(** X13. Init-db, then a query, on one connection: the query is planned
    against the schema that init-db selected. *)
Theorem use_then_query
    (writer : ResultWriter) (h : MySqlHandler) (t : list Event)
    (db : string) (s : Schema) (c : Conn) (sql : list byte) :
  ServerCtx_Schema (svr (shared h)) db = Some s →
  conn h = Some c →
  let st1 := snd (Handle writer
                    {| handler := h;
                       request := {| Raw := COM_INIT_DB
                                            :: String.list_byte_of_string db |};
                       trace := t |}) in
  let st2 := snd (Handle writer
                    (set_request {| Raw := COM_QUERY :: sql |} st1)) in
  schema (handler st2) = Some s
  ∧ ∃ evs,
      trace st2
      = (t ++ [EvConnWriteOK (conn_id c);
               EvBuildJob {| ctx_Raw := string_of_bytes sql;
                             ctx_DisableRecover :=
                               SupressRecover (Config (svr (shared h)));
                             ctx_Session := sess h;
                             ctx_Schema := Some s |}] ++ evs)%list.
Proof.
  intros Hdb Hc st1 st2. subst st2 st1.
  assert (E1 : Handle writer
                 {| handler := h;
                    request := {| Raw := COM_INIT_DB
                                         :: String.list_byte_of_string db |};
                    trace := t |}
               = (Returned (conn_WriteOK c),
                  {| handler := set_schema (Some s) h;
                     request := {| Raw := String.list_byte_of_string db |};
                     trace := t ++ [EvConnWriteOK (conn_id c)] |})).
  { init_db_eval. rewrite Hdb. cbn. rewrite Hc. done. }
  rewrite E1. cbn [snd].
  unfold set_request. cbn [handler request trace].
  rewrite Handle_query by (by left).
  destruct (handleQuery_frame writer (string_of_bytes sql)
              (set_schema (Some s) h) {| Raw := sql |}
              (t ++ [EvConnWriteOK (conn_id c)])) as (out & evs0 & E).
  split; [by rewrite E|].
  destruct (handleQuery_first_event writer (string_of_bytes sql)
              (set_schema (Some s) h) {| Raw := sql |}
              (t ++ [EvConnWriteOK (conn_id c)]) s eq_refl) as [evs E2].
  exists evs. rewrite E2. cbn. by rewrite <- app_assoc.
Qed.

End Sessions.

Lemma query_calls_planner_first_witness :
  ∃ evs,
    trace (snd (handleQuery
                  (env := Sample.protocol
                            (Sample.planner_returns
                               None (Some Sample.parse_error)))
                  Sample.sink "SET Names utf8"
                  {| handler := Sample.using_test; request := {| Raw := [] |};
                     trace := [] |}))
    = ([] ++ EvBuildJob {| ctx_Raw := "SET Names utf8";
                           ctx_DisableRecover := false;
                           ctx_Session := Some {| session_vars := ∅ |};
                           ctx_Schema := Some Sample.test_schema |} :: evs)%list.
Proof.
  exact (query_calls_planner_first
           (env := Sample.protocol
                     (Sample.planner_returns None (Some Sample.parse_error)))
           Sample.sink Sample.using_test {| Raw := [] |} [] "SET Names utf8"
           Sample.test_schema eq_refl).
Defined.

Lemma use_then_query_witness :
  let st1 := snd (Handle
                    (env := Sample.protocol (Sample.planner_returns None None))
                    Sample.sink
                    {| handler := Sample.connected;
                       request := Sample.packet x02 "test"; trace := [] |}) in
  let st2 := snd (Handle
                    (env := Sample.protocol (Sample.planner_returns None None))
                    Sample.sink
                    (set_request (Sample.packet x03 "select 1") st1)) in
  schema (handler st2) = Some Sample.test_schema
  ∧ ∃ evs,
      trace st2
      = ([] ++ [EvConnWriteOK 1;
                EvBuildJob {| ctx_Raw := "select 1";
                              ctx_DisableRecover := false;
                              ctx_Session := Some {| session_vars := ∅ |};
                              ctx_Schema := Some Sample.test_schema |}]
            ++ evs)%list.
Proof.
  exact (use_then_query
           (env := Sample.protocol (Sample.planner_returns None None))
           Sample.sink Sample.connected [] "test" Sample.test_schema
           Sample.client (String.list_byte_of_string "select 1")
           eq_refl eq_refl).
Defined.

(** ** What a request can change *)

Section Frame.
Context {env : Collaborators}.


(** X15. Only init-db can change the active schema and only quit can change
    the transport: after any other command they are what they were. *)
Theorem Handle_changes
    (writer : ResultWriter) (h : MySqlHandler) (t : list Event)
    (cmd : byte) (payload : list byte) :
  let st' := snd (Handle writer
                    {| handler := h; request := {| Raw := cmd :: payload |};
                       trace := t |}) in
  (cmd = COM_INIT_DB ∨ schema (handler st') = schema h)
  ∧ (cmd = COM_QUIT ∨ conn (handler st') = conn h).
Proof.
  destruct (Handle _ _) as [out st2] eqn:E. cbn [snd].
  unfold Handle, chooseCommand in E. unfold bind at 1, gets at 1 in E.
  cbn [request Raw] in E.
  unfold bind at 1, modify at 1, set_request in E.
  cbn [handler request trace] in E.
  unfold switch_cmd in E. cbn zeta in E.
  repeat case_decide.
  - cbn in E. injection E as <- <-. auto.
  - unfold bind at 1, gets at 1 in E. cbn [request Raw] in E.
    destruct (handleQuery_frame writer (string_of_bytes payload)
                h {| Raw := payload |} t) as (out' & evs & E').
    rewrite E' in E. injection E as <- <-. cbn. auto.
  - go_unfold. cbn in E. destruct (conn h) eqn:Hc; cbn in E;
      injection E as <- <-; cbn; split; right; congruence.
  - go_unfold. cbn in E. destruct (conn h) eqn:Hc; cbn in E;
      injection E as <- <-; cbn; auto.
  - go_unfold. cbn in E.
    match type of E with
    | context [schemas ?a !! ?b] => destruct (schemas a !! b)
    end; cbn in E;
      [destruct (conn h) eqn:Hc; cbn in E|]; injection E as <- <-;
      cbn; auto.
  - cbn in E. injection E as <- <-. auto.
Qed.

End Frame.

(** ** A new connection *)

Section NewConnection.
Context {env : Collaborators}.

(** X16. A handler that [Open] returns starts without a schema, whatever the
    handler it was opened from had selected: it shares that handler's
    server context, is bound to the transport given, has fresh session
    variables, and its first query, before any init-db, is refused with
    "no schema in use" without reaching the planner. *)
Theorem Open_then_query
    (writer : ResultWriter) (m h' : MySqlHandler) (c : option Conn)
    (t : list Event) (cmd : byte) (sql : list byte) :
  Open m (ProxyConn c) = Returned h' →
  cmd = COM_QUERY ∨ cmd = COM_STMT_PREPARE →
  shared h' = shared m
  ∧ conn h' = c
  ∧ sess h' = Some NewMySqlSessionVars
  ∧ Handle writer {| handler := h'; request := {| Raw := cmd :: sql |};
                     trace := t |}
    = (Returned (Some (ErrorString "no schema in use")),
       {| handler := h'; request := {| Raw := sql |};
          trace := t ++ [EvLog LvlWarn "missing schema?  "] |}).
Proof.
  intros Hopen Hcmd. injection Hopen as <-. split_and!; try reflexivity.
  rewrite Handle_query by done.
  unfold handleQuery, handleQuery_body. go_unfold. reflexivity.
Qed.

End NewConnection.

Lemma Open_then_query_witness :
  shared Sample.connected = shared Sample.using_test
  ∧ conn Sample.connected = Some Sample.client
  ∧ sess Sample.connected = Some {| session_vars := ∅ |}
  ∧ Handle (env := Sample.protocol (Sample.planner_returns None None))
      Sample.sink
      {| handler := Sample.connected; request := Sample.packet x16 "select ?";
         trace := [] |}
    = (Returned (Some (ErrorString "no schema in use")),
       {| handler := Sample.connected;
          request := {| Raw := String.list_byte_of_string "select ?" |};
          trace := [EvLog LvlWarn "missing schema?  "] |}).
Proof.
  exact (Open_then_query
           (env := Sample.protocol (Sample.planner_returns None None))
           Sample.sink Sample.using_test Sample.connected (Some Sample.client)
           [] x16 (String.list_byte_of_string "select ?")
           eq_refl (or_intror eq_refl)).
Defined.

(** ** More on bind variables *)

Lemma range_from_app {V} (a b : list V) :
  ∀ i (acc : gmap string V),
    range_from i (a ++ b) acc = range_from (i + length a) b (range_from i a acc).
Proof.
  induction a as [|v a IH]; intros i acc; simpl.
  - by rewrite Nat.add_0_r.
  - rewrite IH. f_equal. lia.
Qed.

Lemma makeBindVars_lookup {V} (args : list V) (i : nat) :
  makeBindVars args !! bind_key i = args !! i.
Proof.
  unfold makeBindVars.
  pose proof (range_from_lookup args 0 ∅ i) as E. simpl in E.
  rewrite E, lookup_empty. by destruct (args !! i).
Qed.

(** X17. Binding one more argument adds one key, numbered after the last, and
    leaves the bindings of the earlier arguments as they were. *)
Theorem makeBindVars_snoc {V} (args : list V) (v : V) :
  makeBindVars (args ++ [v])
  = <["v" +:+ fmt_d (N.of_nat (length args + 1)) := v]> (makeBindVars args).
Proof.
  unfold makeBindVars. rewrite range_from_app. reflexivity.
Qed.

(** X18. The mapping determines the argument list: two argument lists with
    the same bind variables are the same list. *)
Theorem makeBindVars_inj {V} (a b : list V) :
  makeBindVars a = makeBindVars b → a = b.
Proof.
  intros E. apply list_eq. intros i.
  by rewrite <- !makeBindVars_lookup, E.
Qed.

Lemma makeBindVars_inj_witness : [1%Z; 2%Z] = [1%Z; 1 + 1]%Z.
Proof. exact (makeBindVars_inj [1%Z; 2%Z] [1%Z; 1 + 1]%Z eq_refl). Defined.

(** ** From the shared handler to a session *)

Section Lifecycle.
Context {env : Collaborators}.

(** X19. [NewMySqlHandler] never fails, and a handler opened from the one it
    returns resolves init-db against the registry of the server context
    that [NewMySqlHandler] was given: a known name is selected and
    acknowledged, an unknown one is refused and nothing is selected. *)
Theorem new_handler_uses_registry
    (writer : ResultWriter) (server : ServerCtx) (c : Conn)
    (t : list Event) (db : string) :
  let h' := {| shared := {| svr := server |};
               sess := Some NewMySqlSessionVars;
               conn := Some c; schema := None |} in
  snd (NewMySqlHandler server) = None
  ∧ Open (fst (NewMySqlHandler server)) (ProxyConn (Some c)) = Returned h'
  ∧ Handle writer {| handler := h';
                     request := {| Raw := COM_INIT_DB
                                          :: String.list_byte_of_string db |};
                     trace := t |}
    = match ServerCtx_Schema server db with
      | Some s =>
          (Returned (conn_WriteOK c),
           {| handler := set_schema (Some s) h';
              request := {| Raw := String.list_byte_of_string db |};
              trace := t ++ [EvConnWriteOK (conn_id c)] |})
      | None =>
          (Returned (Some (ErrorString ("Schema not found " +:+ db))),
           {| handler := h';
              request := {| Raw := String.list_byte_of_string db |};
              trace := t ++ [EvLog LvlWarn
                               ("Could not find schema for db=" +:+ db)] |})
      end.
Proof.
  intros h'. split_and!; [reflexivity | reflexivity |].
  init_db_eval. by destruct (ServerCtx_Schema server db).
Qed.

(** X20. A second quit on the same connection finds no transport: it closes
    nothing, records nothing, and returns nil like the first. *)
Theorem quit_twice
    (writer : ResultWriter) (h : MySqlHandler) (t : list Event)
    (p1 p2 : list byte) :
  let st1 := snd (Handle writer
                    {| handler := h; request := {| Raw := COM_QUIT :: p1 |};
                       trace := t |}) in
  Handle writer (set_request {| Raw := COM_QUIT :: p2 |} st1)
  = (Returned None, set_request {| Raw := p2 |} st1).
Proof.
  assert (Q : ∀ h0 t0 p,
    Handle writer {| handler := h0; request := {| Raw := COM_QUIT :: p |};
                     trace := t0 |}
    = (Returned None,
       {| handler := set_conn None h0; request := {| Raw := p |};
          trace := t0 ++ match conn h0 with
                         | Some c => [EvConnClose (conn_id c)]
                         | None => []
                         end |})).
  { intros h0 t0 p. dispatch_on D.
    rewrite !decide_False by (intuition congruence).
    rewrite decide_True by done.
    go_unfold. cbn. destruct h0 as [sh se [c|] sc]; cbn; [done|].
    by rewrite app_nil_r. }
  intros st1. subst st1. rewrite Q. cbn [snd]. unfold set_request.
  cbn [handler request trace]. rewrite Q. cbn. by rewrite app_nil_r.
Qed.

End Lifecycle.
